(** * convert_to_coreml.py: the Silero VAD ONNX-to-CoreML conversion script

    A shallow embedding of [convert_to_coreml.py] and of the process it runs
    in.  The script is straight-line code over three black boxes (the Python
    import system, [coremltools.convert] and [MLModel.save]); it is embedded
    as a computation in a small state-and-exception monad whose primitives
    query those black boxes through the [host] record.  Every literal of the
    script appears verbatim in [script]. *)

From Stdlib Require Import ZArith Strings.Byte Ascii String.
From stdpp Require Import base option list strings gmap.

Local Open Scope Z_scope.

(** ** Python values the script handles *)

(** Exceptions a library can raise.  [ModuleNotFoundError] is the subclass of
    [ImportError] raised for an absent package; every other class is
    [OtherError], named by its class. *)
Inductive exception : Type :=
  | ImportError
  | ModuleNotFoundError
  | OtherError (cls : string).

(** [isinstance(e, ImportError)], the test of [except ImportError:]. *)
Definition isinstance_ImportError (e : exception) : bool :=
  match e with
  | ImportError | ModuleNotFoundError => true
  | OtherError _ => false
  end.

(** What unwinds the module body: an exception raised by a library, or the
    [SystemExit] raised by the builtin [exit]. *)
Inductive unwinding : Type :=
  | Raise (e : exception)
  | SystemExit (code : Z).

(** The part of the [coremltools] interface the script touches. *)
Module ct.

Module target.
Inductive t : Type :=
  | iOS13 | iOS14 | iOS15 | iOS16 | iOS17
  | macOS10_15 | macOS11 | macOS12 | macOS13.
End target.

Record TensorType : Type := { name : string; shape : list Z }.

(** The keyword arguments of one [ct.convert(...)] call. *)
Record convert_call : Type := {
  model : string;
  convert_to : string;
  minimum_deployment_target : target.t;
  inputs : list TensorType
}.

(** The in-memory converted model; [package] is what [save] serialises. *)
Record MLModel : Type := { package : list byte }.

End ct.

(** ** The process and its surroundings *)

(** POSIX [os.path.isabs] and [os.path.join]: how a path handed to a library
    is resolved against the working directory. *)
Definition isabs (p : string) : bool := String.prefix "/" p.

Fixpoint endswith_sep (d : string) : bool :=
  match d with
  | EmptyString => false
  | String c EmptyString => Ascii.eqb c "/"
  | String _ d' => endswith_sep d'
  end.

Definition path_join (d p : string) : string :=
  if isabs p then p
  else match d with
       | EmptyString => p
       | _ => if endswith_sep d then d +:+ p else d +:+ "/" +:+ p
       end.

(** Everything outside the script that a run can depend on.  The three
    library entries are black boxes: [import_module] says whether importing
    a module raises; [ct_convert] is [coremltools.convert], which reads the
    file system and returns a model or raises; [MLModel_save] is
    [MLModel.save], which returns the file system it leaves behind together
    with the exception it raised, if any. *)
Record host : Type := {
  argv : list string;
  environ : gmap string string;
  cwd : string;
  import_module : string → option exception;
  ct_convert : ct.convert_call → string → gmap string (list byte)
               → exception + ct.MLModel;
  MLModel_save : ct.MLModel → string → string → gmap string (list byte)
                 → option exception * gmap string (list byte)
}.

(** Observable actions of a run, in program order. *)
Inductive event : Type :=
  | EvPrint (line : string)
  | EvConvert (c : ct.convert_call)
  | EvSave (m : ct.MLModel) (path : string).

Record state : Type := {
  fs : gmap string (list byte);
  trace : list event
}.

Definition emit (ev : event) (s : state) : state :=
  {| fs := fs s; trace := trace s ++ [ev] |}.

Definition set_fs (f : gmap string (list byte)) (s : state) : state :=
  {| fs := f; trace := trace s |}.

(** ** The monad of module-level code *)

Inductive result (A : Type) : Type :=
  | Normal (a : A)
  | Unwind (u : unwinding).
Arguments Normal {A} a.
Arguments Unwind {A} u.

Definition M (A : Type) : Type := host → state → result A * state.

#[global] Instance M_ret : MRet M := λ A a _ s, (Normal a, s).

#[global] Instance M_bind : MBind M := λ A B k c h s,
  match c h s with
  | (Normal a, s') => k a h s'
  | (Unwind u, s') => (Unwind u, s')
  end.

(** [print(line)] *)
Definition print (line : string) : M unit :=
  λ _ s, (Normal (), emit (EvPrint line) s).

(** [exit(code)] raises [SystemExit(code)]. *)
Definition exit (code : Z) : M unit :=
  λ _ s, (Unwind (SystemExit code), s).

(** [import module] *)
Definition import (module : string) : M unit :=
  λ h s, match import_module h module with
         | None => (Normal (), s)
         | Some e => (Unwind (Raise e), s)
         end.

(** [try: body / except ImportError: handler].  Only an exception that is an
    instance of [ImportError] enters the handler; anything else, [SystemExit]
    included, keeps unwinding. *)
Definition try_except_ImportError {A : Type} (body handler : M A) : M A :=
  λ h s, match body h s with
         | (Unwind (Raise e), s') =>
             if isinstance_ImportError e then handler h s'
             else (Unwind (Raise e), s')
         | r => r
         end.

(** [ct.convert(model=..., convert_to=..., minimum_deployment_target=...,
    inputs=...)] *)
Definition convert (c : ct.convert_call) : M ct.MLModel :=
  λ h s, let s' := emit (EvConvert c) s in
         match ct_convert h c (cwd h) (fs s) with
         | inl e => (Unwind (Raise e), s')
         | inr m => (Normal m, s')
         end.

(** [m.save(path)] *)
Definition save (m : ct.MLModel) (path : string) : M unit :=
  λ h s, let s' := emit (EvSave m path) s in
         match MLModel_save h m path (cwd h) (fs s) with
         | (None, f) => (Normal (), set_fs f s')
         | (Some e, f) => (Unwind (Raise e), set_fs f s')
         end.

(** ** The script *)

Definition script : M unit :=
  try_except_ImportError
    (import "coremltools";;
     import "onnx")
    (print "Please install required packages:";;
     print "pip install coremltools onnx onnxruntime";;
     exit 1);;
  print "Loading ONNX model...";;
  print "Converting to CoreML...";;
  coreml_model ← convert
    {| ct.model := "silero_vad.onnx";
       ct.convert_to := "mlprogram";
       ct.minimum_deployment_target := ct.target.iOS15;
       ct.inputs := [ {| ct.name := "input"; ct.shape := [1; 512] |} ] |};
  print "Saving CoreML model...";;
  save coreml_model
    "/Users/ebowwa/apps/ios/VAD-Test/VAD-Test/Models/silero_vad.mlpackage";;
  print "Conversion complete!".

(** ** Running the script as a process *)

Definition run (h : host) (f : gmap string (list byte)) : result unit * state :=
  script h {| fs := f; trace := [] |}.

Definition outcome (r : result unit * state) : result unit := r.1.
Definition final_fs (r : result unit * state) : gmap string (list byte) := fs r.2.

(** The exit status of the interpreter: 0 when the module body runs to its
    end, the code of a [SystemExit], and 1 for an uncaught exception. *)
Definition exit_status (r : result unit * state) : Z :=
  match r.1 with
  | Normal _ => 0
  | Unwind (SystemExit code) => code
  | Unwind (Raise _) => 1
  end.

Definition stdout (r : result unit * state) : list string :=
  omap (λ ev, match ev with EvPrint l => Some l | _ => None end) (trace r.2).

Definition convert_calls (r : result unit * state) : list ct.convert_call :=
  omap (λ ev, match ev with EvConvert c => Some c | _ => None end) (trace r.2).

Definition save_calls (r : result unit * state) : list (ct.MLModel * string) :=
  omap (λ ev, match ev with EvSave m p => Some (m, p) | _ => None end) (trace r.2).

(** ** Names for the script's literals and for the import block *)

(** The argument record of the script's [ct.convert] call. *)
Definition conversion_request : ct.convert_call :=
  {| ct.model := "silero_vad.onnx";
     ct.convert_to := "mlprogram";
     ct.minimum_deployment_target := ct.target.iOS15;
     ct.inputs := [ {| ct.name := "input"; ct.shape := [1; 512] |} ] |}.

(** The argument of the script's [save] call. *)
Definition output_path : string :=
  "/Users/ebowwa/apps/ios/VAD-Test/VAD-Test/Models/silero_vad.mlpackage".

(** Where the library looks for the source model in a process whose working
    directory is [d]. *)
Definition source_path (d : string) : string := path_join d "silero_vad.onnx".

(** What the two [import] statements of the [try] block do, in order:
    [None] when both modules load, the first exception raised otherwise. *)
Definition import_block (h : host) : option exception :=
  match import_module h "coremltools" with
  | Some e => Some e
  | None => import_module h "onnx"
  end.

(** ** What the script relies on from the libraries

    The libraries are not part of the repository; where a property of a run
    depends on what they do, the dependence is a named hypothesis. *)

(** [ct.convert] raises when no file is at the resolved model path. *)
Definition convert_requires_source (h : host) : Prop :=
  ∀ c d (f : gmap string (list byte)),
    f !! path_join d (ct.model c) = None → ∃ e, ct_convert h c d f = inl e.

(** [ct.convert] reads nothing but the file at the resolved model path. *)
Definition convert_reads_only_source (h : host) : Prop :=
  ∀ c d (f1 f2 : gmap string (list byte)),
    f1 !! path_join d (ct.model c) = f2 !! path_join d (ct.model c) →
    ct_convert h c d f1 = ct_convert h c d f2.

(** A [save] that returns has written the package at the resolved path and
    touched nothing else. *)
Definition save_writes_package (h : host) : Prop :=
  ∀ m p d (f f' : gmap string (list byte)),
    MLModel_save h m p d f = (None, f') →
    f' = <[path_join d p := ct.package m]> f.

(** ** Concrete hosts *)

Definition toy_convert (c : ct.convert_call) (d : string)
    (f : gmap string (list byte)) : exception + ct.MLModel :=
  match f !! path_join d (ct.model c) with
  | Some b => inr {| ct.package := rev b |}
  | None => inl (OtherError "ValueError")
  end.

Definition toy_save (m : ct.MLModel) (p d : string)
    (f : gmap string (list byte)) : option exception * gmap string (list byte) :=
  (None, <[path_join d p := ct.package m]> f).

Definition refusing_save (m : ct.MLModel) (p d : string)
    (f : gmap string (list byte)) : option exception * gmap string (list byte) :=
  (Some (OtherError "PermissionError"), f).

(** A machine with both libraries installed, launched from [d]. *)
Definition workstation (d : string) : host :=
  {| argv := ["convert_to_coreml.py"]; environ := ∅; cwd := d;
     import_module := λ _, None;
     ct_convert := toy_convert; MLModel_save := toy_save |}.

(** The same machine with a destination directory that cannot be written. *)
Definition workstation_readonly (d : string) : host :=
  {| argv := ["convert_to_coreml.py"]; environ := ∅; cwd := d;
     import_module := λ _, None;
     ct_convert := toy_convert; MLModel_save := refusing_save |}.

(** A machine on which importing [m] raises [e] and every other import
    succeeds. *)
Definition workstation_failing_import (m : string) (e : exception) : host :=
  {| argv := ["convert_to_coreml.py"]; environ := ∅; cwd := "/home/dev/vad";
     import_module := λ n, if String.eqb n m then Some e else None;
     ct_convert := toy_convert; MLModel_save := toy_save |}.

Definition onnx_bytes : list byte := [x08; x07; x12; x04].

Definition disk_with_source : gmap string (list byte) :=
  {[ "/home/dev/vad/silero_vad.onnx" := onnx_bytes ]}.

Definition disk_with_artifact : gmap string (list byte) :=
  <[ output_path := [xff] ]> disk_with_source.

(** A disk holding a second, different model in another directory. *)
Definition other_onnx_bytes : list byte := [x08; x09].

Definition disk_two_checkouts : gmap string (list byte) :=
  <[ "/home/dev/other/silero_vad.onnx" := other_onnx_bytes ]> disk_with_source.

(** The same host launched with other command-line arguments and another
    environment. *)
Definition with_args (a : list string) (v : gmap string string) (h : host) : host :=
  {| argv := a; environ := v; cwd := cwd h;
     import_module := import_module h;
     ct_convert := ct_convert h; MLModel_save := MLModel_save h |}.

(** The same host with another set of installed modules. *)
Definition with_imports (im : string → option exception) (h : host) : host :=
  {| argv := argv h; environ := environ h; cwd := cwd h;
     import_module := im;
     ct_convert := ct_convert h; MLModel_save := MLModel_save h |}.

(** A [save] that runs out of space: it leaves the first byte of the package
    at the path and raises. *)
Definition truncating_save (m : ct.MLModel) (p d : string)
    (f : gmap string (list byte)) : option exception * gmap string (list byte) :=
  (Some (OtherError "OSError"), <[path_join d p := take 1 (ct.package m)]> f).

Definition workstation_full_disk (d : string) : host :=
  {| argv := ["convert_to_coreml.py"]; environ := ∅; cwd := d;
     import_module := λ _, None;
     ct_convert := toy_convert; MLModel_save := truncating_save |}.

(** A machine without [onnxruntime], the third package of the remediation
    message, and with everything else installed. *)
Definition without_onnxruntime (n : string) : option exception :=
  if String.eqb n "onnxruntime" then Some ModuleNotFoundError else None.




(** The last character of a path, used to tell the source from the
    destination. *)
Fixpoint last_char (s : string) : option ascii :=
  match s with
  | EmptyString => None
  | String c s' => match last_char s' with
                   | None => Some c
                   | Some c' => Some c'
                   end
  end.

(** The shapes a run can take: one constructor per way through the script. *)
Inductive run_shape (h : host) (f : gmap string (list byte)) :
    result unit * state → Prop :=
  | shape_missing_library e :
      import_block h = Some e → isinstance_ImportError e = true →
      run_shape h f
        (Unwind (SystemExit 1),
         {| fs := f;
            trace := [EvPrint "Please install required packages:";
                      EvPrint "pip install coremltools onnx onnxruntime"] |})
  | shape_import_raises e :
      import_block h = Some e → isinstance_ImportError e = false →
      run_shape h f (Unwind (Raise e), {| fs := f; trace := [] |})
  | shape_convert_raises e :
      import_block h = None →
      ct_convert h conversion_request (cwd h) f = inl e →
      run_shape h f
        (Unwind (Raise e),
         {| fs := f;
            trace := [EvPrint "Loading ONNX model...";
                      EvPrint "Converting to CoreML...";
                      EvConvert conversion_request] |})
  | shape_save_raises m e f' :
      import_block h = None →
      ct_convert h conversion_request (cwd h) f = inr m →
      MLModel_save h m output_path (cwd h) f = (Some e, f') →
      run_shape h f
        (Unwind (Raise e),
         {| fs := f';
            trace := [EvPrint "Loading ONNX model...";
                      EvPrint "Converting to CoreML...";
                      EvConvert conversion_request;
                      EvPrint "Saving CoreML model...";
                      EvSave m output_path] |})
  | shape_complete m f' :
      import_block h = None →
      ct_convert h conversion_request (cwd h) f = inr m →
      MLModel_save h m output_path (cwd h) f = (None, f') →
      run_shape h f
        (Normal (),
         {| fs := f';
            trace := [EvPrint "Loading ONNX model...";
                      EvPrint "Converting to CoreML...";
                      EvConvert conversion_request;
                      EvPrint "Saving CoreML model...";
                      EvSave m output_path;
                      EvPrint "Conversion complete!"] |}).

(** ** How a run unfolds *)

Section Runs.
Context (h : host) (f : gmap string (list byte)).

Lemma run_ImportError e :
  import_block h = Some e → isinstance_ImportError e = true →
  run h f =
    (Unwind (SystemExit 1),
     {| fs := f;
        trace := [EvPrint "Please install required packages:";
                  EvPrint "pip install coremltools onnx onnxruntime"] |}).
Proof.
  unfold import_block, run, script, mbind, M_bind, try_except_ImportError, import.
  intros Hb He.
  destruct (import_module h "coremltools") as [e1|].
  - injection Hb as ->. simpl. rewrite He. reflexivity.
  - rewrite Hb. simpl. rewrite He. reflexivity.
Qed.

Lemma run_other_exception e :
  import_block h = Some e → isinstance_ImportError e = false →
  run h f = (Unwind (Raise e), {| fs := f; trace := [] |}).
Proof.
  unfold import_block, run, script, mbind, M_bind, try_except_ImportError, import.
  intros Hb He.
  destruct (import_module h "coremltools") as [e1|].
  - injection Hb as ->. simpl. rewrite He. reflexivity.
  - rewrite Hb. simpl. rewrite He. reflexivity.
Qed.

Lemma run_convert_raises e :
  import_block h = None →
  ct_convert h conversion_request (cwd h) f = inl e →
  run h f =
    (Unwind (Raise e),
     {| fs := f;
        trace := [EvPrint "Loading ONNX model...";
                  EvPrint "Converting to CoreML...";
                  EvConvert conversion_request] |}).
Proof.
  unfold import_block, run, script, mbind, M_bind, try_except_ImportError,
    import, convert, conversion_request.
  intros Hb Hc.
  destruct (import_module h "coremltools") as [e1|]; [discriminate|].
  rewrite Hb. simpl. unfold conversion_request in Hc. rewrite Hc. reflexivity.
Qed.

Lemma run_save_returns m f' :
  import_block h = None →
  ct_convert h conversion_request (cwd h) f = inr m →
  MLModel_save h m output_path (cwd h) f = (None, f') →
  run h f =
    (Normal (),
     {| fs := f';
        trace := [EvPrint "Loading ONNX model...";
                  EvPrint "Converting to CoreML...";
                  EvConvert conversion_request;
                  EvPrint "Saving CoreML model...";
                  EvSave m output_path;
                  EvPrint "Conversion complete!"] |}).
Proof.
  unfold import_block, run, script, mbind, M_bind, try_except_ImportError,
    import, convert, save, conversion_request, output_path.
  intros Hb Hc Hs.
  destruct (import_module h "coremltools") as [e1|]; [discriminate|].
  rewrite Hb. simpl. rewrite Hc. simpl. rewrite Hs. reflexivity.
Qed.

Lemma run_save_raises m e f' :
  import_block h = None →
  ct_convert h conversion_request (cwd h) f = inr m →
  MLModel_save h m output_path (cwd h) f = (Some e, f') →
  run h f =
    (Unwind (Raise e),
     {| fs := f';
        trace := [EvPrint "Loading ONNX model...";
                  EvPrint "Converting to CoreML...";
                  EvConvert conversion_request;
                  EvPrint "Saving CoreML model...";
                  EvSave m output_path] |}).
Proof.
  unfold import_block, run, script, mbind, M_bind, try_except_ImportError,
    import, convert, save, conversion_request, output_path.
  intros Hb Hc Hs.
  destruct (import_module h "coremltools") as [e1|]; [discriminate|].
  rewrite Hb. simpl. rewrite Hc. simpl. rewrite Hs. reflexivity.
Qed.

End Runs.

(** Every run has one of the five shapes. *)
Lemma run_has_shape h f : run_shape h f (run h f).
Proof.
  destruct (import_block h) as [e|] eqn:Hb.
  - destruct (isinstance_ImportError e) eqn:He.
    + rewrite (run_ImportError h f e Hb He). by eapply shape_missing_library.
    + rewrite (run_other_exception h f e Hb He). by eapply shape_import_raises.
  - destruct (ct_convert h conversion_request (cwd h) f) as [e|m] eqn:Hc.
    + rewrite (run_convert_raises h f e Hb Hc). by eapply shape_convert_raises.
    + destruct (MLModel_save h m output_path (cwd h) f) as [[e|] f'] eqn:Hs.
      * rewrite (run_save_raises h f m e f' Hb Hc Hs). by eapply shape_save_raises.
      * rewrite (run_save_returns h f m f' Hb Hc Hs). by eapply shape_complete.
Qed.

(** ** Paths *)

Lemma last_char_app s t :
  last_char (s +:+ t) =
    match last_char t with None => last_char s | Some c => Some c end.
Proof.
  induction s as [|c s IH].
  - change ("" +:+ t) with t. by destruct (last_char t).
  - change (String c s +:+ t) with (String c (s +:+ t)). simpl.
    rewrite IH. by destruct (last_char t).
Qed.

Lemma last_char_source_path d : last_char (source_path d) = Some "x"%char.
Proof.
  unfold source_path, path_join.
  change (isabs "silero_vad.onnx") with false. cbv iota.
  destruct d as [|c d]; [reflexivity|].
  destruct (endswith_sep (String c d)); by rewrite !last_char_app.
Qed.

(** The source never resolves to the destination, whatever the working
    directory. *)
Lemma source_path_ne_output_path d : source_path d ≠ output_path.
Proof.
  intros Heq. pose proof (last_char_source_path d) as Hl.
  rewrite Heq in Hl. vm_compute in Hl. discriminate.
Qed.

Lemma path_join_output_path d : path_join d output_path = output_path.
Proof. reflexivity. Qed.

(** ** The toy libraries honour the contracts *)

Lemma workstation_requires_source d : convert_requires_source (workstation d).
Proof. intros c d' f Hf. simpl. unfold toy_convert. rewrite Hf. by eexists. Qed.

Lemma workstation_reads_only_source d : convert_reads_only_source (workstation d).
Proof. intros c d' f1 f2 Hf. simpl. unfold toy_convert. by rewrite Hf. Qed.

Lemma workstation_writes_package d : save_writes_package (workstation d).
Proof. intros m p d' f f' Hs. simpl in Hs. unfold toy_save in Hs. congruence. Qed.


Lemma workstation_readonly_writes_package d :
  save_writes_package (workstation_readonly d).
Proof. intros m p d' f f' Hs. simpl in Hs. unfold refusing_save in Hs. congruence. Qed.



(** ** Library calls of a run *)

Lemma convert_calls_run h f :
  convert_calls (run h f) =
    match import_block h with
    | None => [conversion_request]
    | Some _ => []
    end.
Proof.
  destruct (run_has_shape h f) as [e Hb _|e Hb _|e Hb _|m e f' Hb _ _|m f' Hb _ _];
    by rewrite Hb.
Qed.

Lemma save_calls_run h f :
  save_calls (run h f) = [] ∨
  ∃ m, import_block h = None ∧
       ct_convert h conversion_request (cwd h) f = inr m ∧
       save_calls (run h f) = [(m, output_path)].
Proof.
  destruct (run_has_shape h f) as [e Hb _|e Hb _|e Hb _|m e f' Hb Hc _|m f' Hb Hc _];
    [by left..| |]; right; by exists m.
Qed.

Lemma save_calls_run_eq h f :
  save_calls (run h f) =
    match import_block h with
    | Some _ => []
    | None => match ct_convert h conversion_request (cwd h) f with
              | inl _ => []
              | inr m => [(m, output_path)]
              end
    end.
Proof.
  destruct (run_has_shape h f) as [e Hb _|e Hb _|e Hb Hc|m e f' Hb Hc _|m f' Hb Hc _];
    by rewrite Hb, ?Hc.
Qed.

(** ** The import guard *)

(** C2.  When the import block raises [ImportError] (or its subclass
    [ModuleNotFoundError]), the process prints exactly the two remediation
    lines, exits with status 1, leaves the file system as it found it and
    calls neither the converter nor [save]. *)
Theorem missing_library_remediation h f e :
  import_block h = Some e →
  isinstance_ImportError e = true →
  stdout (run h f) = ["Please install required packages:";
                      "pip install coremltools onnx onnxruntime"] ∧
  outcome (run h f) = Unwind (SystemExit 1) ∧
  exit_status (run h f) = 1 ∧
  final_fs (run h f) = f ∧
  convert_calls (run h f) = [] ∧
  save_calls (run h f) = [].
Proof.
  intros Hb He. by rewrite (run_ImportError h f e Hb He).
Qed.

Lemma missing_library_remediation_witness :
  import_block (workstation_failing_import "onnx" ModuleNotFoundError)
    = Some ModuleNotFoundError ∧
  stdout (run (workstation_failing_import "onnx" ModuleNotFoundError)
              disk_with_artifact)
    = ["Please install required packages:";
       "pip install coremltools onnx onnxruntime"] ∧
  exit_status (run (workstation_failing_import "onnx" ModuleNotFoundError)
                   disk_with_artifact) = 1 ∧
  final_fs (run (workstation_failing_import "onnx" ModuleNotFoundError)
                disk_with_artifact) = disk_with_artifact.
Proof.
  split; [reflexivity|].
  destruct (missing_library_remediation
              (workstation_failing_import "onnx" ModuleNotFoundError)
              disk_with_artifact ModuleNotFoundError eq_refl eq_refl)
    as (Hout & _ & Hst & Hfs & _).
  exact (conj Hout (conj Hst Hfs)).
Defined.

(** C9.  The guard catches [ImportError] only.  When the import block raises
    an exception of any other class, that exception leaves the script
    unhandled: nothing is printed, in particular not the remediation
    message, and the process does not go through [exit(1)]. *)
Theorem other_exception_propagates h f e :
  import_block h = Some e →
  isinstance_ImportError e = false →
  outcome (run h f) = Unwind (Raise e) ∧
  outcome (run h f) ≠ Unwind (SystemExit 1) ∧
  stdout (run h f) = [] ∧
  trace (run h f).2 = [] ∧
  final_fs (run h f) = f.
Proof.
  intros Hb He. by rewrite (run_other_exception h f e Hb He).
Qed.

Lemma other_exception_propagates_witness :
  outcome (run (workstation_failing_import "coremltools" (OtherError "AttributeError"))
               disk_with_source)
    = Unwind (Raise (OtherError "AttributeError")) ∧
  stdout (run (workstation_failing_import "coremltools" (OtherError "AttributeError"))
              disk_with_source) = [].
Proof.
  destruct (other_exception_propagates
              (workstation_failing_import "coremltools" (OtherError "AttributeError"))
              disk_with_source (OtherError "AttributeError") eq_refl eq_refl)
    as (Hout & _ & Hstd & _).
  exact (conj Hout Hstd).
Defined.

(** ** The conversion call *)

(** C3.  In a run that gets past the import guard (the only runs in which
    [ct] is bound), [ct.convert] is called exactly once, and its arguments
    are the source path ["silero_vad.onnx"], the encoding ["mlprogram"], the
    deployment target iOS 15 and the one-element input list. *)
Theorem convert_invoked_once h f :
  import_block h = None →
  convert_calls (run h f) =
    [ {| ct.model := "silero_vad.onnx";
         ct.convert_to := "mlprogram";
         ct.minimum_deployment_target := ct.target.iOS15;
         ct.inputs := [ {| ct.name := "input"; ct.shape := [1; 512] |} ] |} ].
Proof.
  intros Hb. by rewrite convert_calls_run, Hb.
Qed.

Lemma convert_invoked_once_witness :
  import_block (workstation "/tmp") = None ∧
  convert_calls (run (workstation "/tmp") disk_with_source) =
    [ {| ct.model := "silero_vad.onnx";
         ct.convert_to := "mlprogram";
         ct.minimum_deployment_target := ct.target.iOS15;
         ct.inputs := [ {| ct.name := "input"; ct.shape := [1; 512] |} ] |} ].
Proof.
  split; [reflexivity|].
  exact (convert_invoked_once (workstation "/tmp") disk_with_source eq_refl).
Defined.

(** C4.  Whatever the run, the input specification handed to [ct.convert] is
    a list of exactly one tensor descriptor, named ["input"], of shape
    (1, 512). *)
Theorem input_specification h f i c :
  convert_calls (run h f) !! i = Some c →
  ct.inputs c = [ {| ct.name := "input"; ct.shape := [1; 512] |} ] ∧
  length (ct.inputs c) = 1%nat.
Proof.
  rewrite convert_calls_run. intros Hc.
  destruct (import_block h); [by destruct i|].
  destruct i as [|i]; [|by destruct i].
  by injection Hc as <-.
Qed.

Lemma input_specification_witness :
  ct.inputs conversion_request = [ {| ct.name := "input"; ct.shape := [1; 512] |} ] ∧
  length (ct.inputs conversion_request) = 1%nat.
Proof.
  exact (input_specification (workstation "/home/dev/vad") disk_with_source
           0%nat conversion_request eq_refl).
Defined.

(** ** Completed runs *)

(** C1, as the code has it.  When both libraries import, a valid source
    model is at the expected path (the converter returns a model for it) and
    the [save] to the destination returns, the run ends with status 0 after
    printing exactly the four progress lines, [save] was called once with the
    fixed destination, and the file system differs from the initial one by
    exactly the package written at that destination. *)
Theorem conversion_completes h f m f' :
  import_block h = None →
  is_Some (f !! source_path (cwd h)) →
  ct_convert h conversion_request (cwd h) f = inr m →
  MLModel_save h m output_path (cwd h) f = (None, f') →
  save_writes_package h →
  outcome (run h f) = Normal () ∧
  exit_status (run h f) = 0 ∧
  stdout (run h f) = ["Loading ONNX model..."; "Converting to CoreML...";
                      "Saving CoreML model..."; "Conversion complete!"] ∧
  save_calls (run h f) =
    [(m, "/Users/ebowwa/apps/ios/VAD-Test/VAD-Test/Models/silero_vad.mlpackage")] ∧
  final_fs (run h f) =
    <["/Users/ebowwa/apps/ios/VAD-Test/VAD-Test/Models/silero_vad.mlpackage"
      := ct.package m]> f.
Proof.
  intros Hb _ Hc Hs Hw. rewrite (run_save_returns h f m f' Hb Hc Hs).
  repeat split. unfold final_fs; simpl.
  by rewrite (Hw m output_path (cwd h) f f' Hs).
Qed.

Lemma conversion_completes_witness :
  exit_status (run (workstation "/home/dev/vad") disk_with_source) = 0 ∧
  stdout (run (workstation "/home/dev/vad") disk_with_source)
    = ["Loading ONNX model..."; "Converting to CoreML...";
       "Saving CoreML model..."; "Conversion complete!"] ∧
  final_fs (run (workstation "/home/dev/vad") disk_with_source)
    = <[output_path := rev onnx_bytes]> disk_with_source.
Proof.
  destruct (conversion_completes (workstation "/home/dev/vad") disk_with_source
              {| ct.package := rev onnx_bytes |}
              (<[output_path := rev onnx_bytes]> disk_with_source)
              eq_refl (ex_intro _ onnx_bytes eq_refl) eq_refl eq_refl
              (workstation_writes_package "/home/dev/vad"))
    as (_ & Hst & Hout & _ & Hfs).
  exact (conj Hst (conj Hout Hfs)).
Defined.

(** C1, as the claim has it, fails where the destination cannot be written:
    the libraries import, the source model is present and converts, yet
    [save] raises, the process ends with status 1 after three lines and
    nothing is at the destination. *)
Lemma readonly_destination_counterexample :
  import_block (workstation_readonly "/home/dev/vad") = None ∧
  disk_with_source !! source_path "/home/dev/vad" = Some onnx_bytes ∧
  ct_convert (workstation_readonly "/home/dev/vad") conversion_request
    "/home/dev/vad" disk_with_source = inr {| ct.package := rev onnx_bytes |} ∧
  outcome (run (workstation_readonly "/home/dev/vad") disk_with_source)
    = Unwind (Raise (OtherError "PermissionError")) ∧
  exit_status (run (workstation_readonly "/home/dev/vad") disk_with_source) = 1 ∧
  stdout (run (workstation_readonly "/home/dev/vad") disk_with_source)
    = ["Loading ONNX model..."; "Converting to CoreML...";
       "Saving CoreML model..."] ∧
  final_fs (run (workstation_readonly "/home/dev/vad") disk_with_source)
    !! output_path = None ∧
  ¬ (∀ h f,
       import_block h = None →
       is_Some (f !! source_path (cwd h)) →
       (∃ m, ct_convert h conversion_request (cwd h) f = inr m) →
       exit_status (run h f) = 0 ∧
       stdout (run h f) = ["Loading ONNX model..."; "Converting to CoreML...";
                           "Saving CoreML model..."; "Conversion complete!"] ∧
       is_Some (final_fs (run h f) !! output_path)).
Proof.
  repeat split; try reflexivity.
  intros Hclaim.
  destruct (Hclaim (workstation_readonly "/home/dev/vad") disk_with_source
              eq_refl (ex_intro _ onnx_bytes eq_refl)
              (ex_intro _ {| ct.package := rev onnx_bytes |} eq_refl))
    as (Hst & _).
  vm_compute in Hst. discriminate.
Qed.

(** ** Runs that stop early *)

(** C5.  When no file is at the path the source resolves to, and the
    converter raises on an absent source as it is documented to, the process
    ends with a non-zero status, [save] is never called and the file system
    is as it was. *)
Theorem missing_source_fails h f :
  convert_requires_source h →
  f !! source_path (cwd h) = None →
  exit_status (run h f) ≠ 0 ∧
  outcome (run h f) ≠ Normal () ∧
  save_calls (run h f) = [] ∧
  final_fs (run h f) = f.
Proof.
  intros Hreq Hsrc.
  destruct (Hreq conversion_request (cwd h) f Hsrc) as [e0 He0].
  destruct (run_has_shape h f) as [e Hb _|e Hb _|e Hb _|m e f' Hb Hc _|m f' Hb Hc _];
    try congruence; by repeat split.
Qed.

Lemma missing_source_fails_witness :
  disk_with_source !! source_path "/tmp" = None ∧
  exit_status (run (workstation "/tmp") disk_with_source) ≠ 0 ∧
  save_calls (run (workstation "/tmp") disk_with_source) = [] ∧
  final_fs (run (workstation "/tmp") disk_with_source) = disk_with_source.
Proof.
  split; [reflexivity|].
  destruct (missing_source_fails (workstation "/tmp") disk_with_source
              (workstation_requires_source "/tmp") eq_refl)
    as (Hst & _ & Hsv & Hfs).
  exact (conj Hst (conj Hsv Hfs)).
Defined.

(** C6.  With respect to the destination a run is all-or-nothing, failures
    inside [save] set aside: either it completes and the new package is at
    the destination, or it ends before [save] is called and the file system,
    the destination included, is unchanged; the only other runs are those in
    which [save] itself raises. *)
Theorem output_all_or_nothing h f :
  save_writes_package h →
  (∃ m, outcome (run h f) = Normal () ∧
        save_calls (run h f) = [(m, output_path)] ∧
        final_fs (run h f) !! output_path = Some (ct.package m))
  ∨ (outcome (run h f) ≠ Normal () ∧
     save_calls (run h f) = [] ∧
     final_fs (run h f) = f ∧
     final_fs (run h f) !! output_path = f !! output_path)
  ∨ (∃ m e, outcome (run h f) = Unwind (Raise e) ∧
            save_calls (run h f) = [(m, output_path)]).
Proof.
  intros Hw.
  destruct (run_has_shape h f) as [e Hb _|e Hb _|e Hb _|m e f' Hb Hc Hs|m f' Hb Hc Hs].
  1-3: by right; left.
  - right; right. by exists m, e.
  - left. exists m. repeat split. unfold final_fs; simpl.
    rewrite (Hw m output_path (cwd h) f f' Hs), path_join_output_path.
    apply lookup_insert_eq.
Qed.

Lemma output_all_or_nothing_witness :
  ∃ m, outcome (run (workstation "/home/dev/vad") disk_with_artifact) = Normal () ∧
       final_fs (run (workstation "/home/dev/vad") disk_with_artifact) !! output_path
         = Some (ct.package m).
Proof.
  destruct (output_all_or_nothing (workstation "/home/dev/vad") disk_with_artifact
              (workstation_writes_package "/home/dev/vad"))
    as [(m & Ho & _ & Hf)|[(Ho & _)|(m & e & Ho & _)]].
  - exact (ex_intro _ m (conj Ho Hf)).
  - exact (False_ind _ (Ho eq_refl)).
  - discriminate Ho.
Defined.

(** ** Overwriting and re-running *)

(** C7.  A run that reaches [save] while something is already at the
    destination goes straight from the progress line to the [save] call on
    the fixed destination path itself: nothing else is printed and no other
    path is derived.  When that [save] returns, the destination holds the new
    package whatever it held before, and no other path has appeared. *)
Theorem existing_artifact_overwritten h f old m p :
  save_calls (run h f) !! 0%nat = Some (m, p) →
  f !! output_path = Some old →
  save_writes_package h →
  p = "/Users/ebowwa/apps/ios/VAD-Test/VAD-Test/Models/silero_vad.mlpackage" ∧
  (∃ rest,
     trace (run h f).2 =
       [EvPrint "Loading ONNX model..."; EvPrint "Converting to CoreML...";
        EvConvert conversion_request; EvPrint "Saving CoreML model...";
        EvSave m p] ++ rest ∧
     (rest = [] ∨ rest = [EvPrint "Conversion complete!"])) ∧
  (outcome (run h f) = Normal () →
     final_fs (run h f) !! p = Some (ct.package m) ∧
     final_fs (run h f) = <[p := ct.package m]> f ∧
     dom (final_fs (run h f)) = dom f).
Proof.
  intros Hcall Hold Hw. revert Hcall.
  destruct (run_has_shape h f) as [e Hb _|e Hb _|e Hb _|m' e f' Hb Hc Hs|m' f' Hb Hc Hs];
    try discriminate; intros [= -> <-].
  - split; [reflexivity|]. split; [exists []; by split; [|left]|]. discriminate.
  - split; [reflexivity|]. split; [eexists; by split; [|right]|]. intros _.
    unfold final_fs; simpl.
    rewrite (Hw m output_path (cwd h) f f' Hs), path_join_output_path.
    split; [apply lookup_insert_eq|]. split; [reflexivity|].
    rewrite dom_insert_L. apply subseteq_union_1_L, singleton_subseteq_l.
    apply elem_of_dom. by exists old.
Qed.

Lemma existing_artifact_overwritten_witness :
  disk_with_artifact !! output_path = Some [xff] ∧
  final_fs (run (workstation "/home/dev/vad") disk_with_artifact) !! output_path
    = Some (rev onnx_bytes) ∧
  dom (final_fs (run (workstation "/home/dev/vad") disk_with_artifact))
    = dom disk_with_artifact.
Proof.
  split; [reflexivity|].
  destruct (existing_artifact_overwritten (workstation "/home/dev/vad")
              disk_with_artifact [xff] {| ct.package := rev onnx_bytes |}
              output_path eq_refl eq_refl
              (workstation_writes_package "/home/dev/vad"))
    as (_ & _ & Hfin).
  destruct (Hfin eq_refl) as (Hl & _ & Hd).
  exact (conj Hl Hd).
Defined.

(** C7, as the claim has it, fails where [save] raises: the run reaches
    [save] with a package at the destination, [save] is called on the fixed
    path, and the old package is still there when the process ends with
    status 1. *)
Lemma refused_overwrite_counterexample :
  save_calls (run (workstation_readonly "/home/dev/vad") disk_with_artifact) !! 0%nat
    = Some ({| ct.package := rev onnx_bytes |}, output_path) ∧
  disk_with_artifact !! output_path = Some [xff] ∧
  save_writes_package (workstation_readonly "/home/dev/vad") ∧
  exit_status (run (workstation_readonly "/home/dev/vad") disk_with_artifact) = 1 ∧
  final_fs (run (workstation_readonly "/home/dev/vad") disk_with_artifact)
    !! output_path = Some [xff] ∧
  ¬ (∀ h f old m p,
       save_calls (run h f) !! 0%nat = Some (m, p) →
       f !! output_path = Some old →
       save_writes_package h →
       final_fs (run h f) !! output_path = Some (ct.package m)).
Proof.
  split; [reflexivity|]. split; [reflexivity|].
  split; [apply workstation_readonly_writes_package|].
  split; [reflexivity|]. split; [reflexivity|].
  intros Hclaim.
  pose proof (Hclaim (workstation_readonly "/home/dev/vad") disk_with_artifact
                [xff] {| ct.package := rev onnx_bytes |} output_path
                eq_refl eq_refl
                (workstation_readonly_writes_package "/home/dev/vad")) as Hf.
  vm_compute in Hf. discriminate.
Qed.




(** ** What selects the source and the destination *)

(** C10.  The model argument of every conversion call is the relative
    literal ["silero_vad.onnx"], which a library resolves against the working
    directory; the path of every [save] call is an absolute literal, which
    resolves to itself from anywhere.  A run does not depend on the command
    line or on the environment, but it does depend on the working directory:
    the same host and disk, launched from three directories, convert two
    different files and fail for want of a source. *)
Theorem source_follows_working_directory :
  (∀ h f, Forall (λ c, ct.model c = "silero_vad.onnx") (convert_calls (run h f))) ∧
  isabs "silero_vad.onnx" = false ∧
  (∀ d, path_join d "silero_vad.onnx" =
          match d with
          | EmptyString => "silero_vad.onnx"
          | _ => if endswith_sep d then d +:+ "silero_vad.onnx"
                 else d +:+ "/" +:+ "silero_vad.onnx"
          end) ∧
  (∀ h f, Forall (λ mp, mp.2 =
            "/Users/ebowwa/apps/ios/VAD-Test/VAD-Test/Models/silero_vad.mlpackage")
          (save_calls (run h f))) ∧
  isabs "/Users/ebowwa/apps/ios/VAD-Test/VAD-Test/Models/silero_vad.mlpackage"
    = true ∧
  (∀ d, path_join d
          "/Users/ebowwa/apps/ios/VAD-Test/VAD-Test/Models/silero_vad.mlpackage"
        = "/Users/ebowwa/apps/ios/VAD-Test/VAD-Test/Models/silero_vad.mlpackage") ∧
  (∀ h a v f, run (with_args a v h) f = run h f) ∧
  final_fs (run (workstation "/home/dev/vad") disk_two_checkouts) !! output_path
    = Some (rev onnx_bytes) ∧
  final_fs (run (workstation "/home/dev/other") disk_two_checkouts) !! output_path
    = Some (rev other_onnx_bytes) ∧
  outcome (run (workstation "/tmp") disk_two_checkouts)
    = Unwind (Raise (OtherError "ValueError")).
Proof.
  split.
  { intros h f. rewrite convert_calls_run.
    destruct (import_block h); by repeat constructor. }
  split; [reflexivity|].
  split; [intros d; reflexivity|].
  split.
  { intros h f. destruct (save_calls_run h f) as [->|(m & _ & _ & ->)];
      by repeat constructor. }
  split; [reflexivity|].
  split; [intros d; reflexivity|].
  split; [intros h a v f; reflexivity|].
  by vm_compute.
Qed.

(** ** Failures after the import guard *)

(** X1.  Any exception raised by [ct.convert] (absent, malformed or
    incompatible source alike) leaves the script unhandled: the process ends
    with status 1 after the two progress lines printed before the call,
    [save] is not called and the file system is untouched. *)
Theorem conversion_error_propagates h f e :
  import_block h = None →
  ct_convert h conversion_request (cwd h) f = inl e →
  outcome (run h f) = Unwind (Raise e) ∧
  exit_status (run h f) = 1 ∧
  stdout (run h f) = ["Loading ONNX model..."; "Converting to CoreML..."] ∧
  save_calls (run h f) = [] ∧
  final_fs (run h f) = f.
Proof.
  intros Hb Hc. by rewrite (run_convert_raises h f e Hb Hc).
Qed.

Lemma conversion_error_propagates_witness :
  outcome (run (workstation "/tmp") disk_with_source)
    = Unwind (Raise (OtherError "ValueError")) ∧
  stdout (run (workstation "/tmp") disk_with_source)
    = ["Loading ONNX model..."; "Converting to CoreML..."].
Proof.
  destruct (conversion_error_propagates (workstation "/tmp") disk_with_source
              (OtherError "ValueError") eq_refl eq_refl)
    as (Ho & _ & Hs & _).
  exact (conj Ho Hs).
Defined.

(** X2.  An exception raised by [save] leaves the script unhandled as well:
    status 1, three progress lines and no completion line.  The script does
    not clean up: whatever the failed [save] left on disk, a truncated
    package included, is what the process leaves behind. *)
Theorem save_error_propagates h f m e f' :
  import_block h = None →
  ct_convert h conversion_request (cwd h) f = inr m →
  MLModel_save h m output_path (cwd h) f = (Some e, f') →
  outcome (run h f) = Unwind (Raise e) ∧
  exit_status (run h f) = 1 ∧
  stdout (run h f) = ["Loading ONNX model..."; "Converting to CoreML...";
                      "Saving CoreML model..."] ∧
  final_fs (run h f) = f'.
Proof.
  intros Hb Hc Hs. by rewrite (run_save_raises h f m e f' Hb Hc Hs).
Qed.

Lemma save_error_propagates_witness :
  exit_status (run (workstation_full_disk "/home/dev/vad") disk_with_artifact) = 1 ∧
  disk_with_artifact !! output_path = Some [xff] ∧
  final_fs (run (workstation_full_disk "/home/dev/vad") disk_with_artifact)
    !! output_path = Some [x04].
Proof.
  destruct (save_error_propagates (workstation_full_disk "/home/dev/vad")
              disk_with_artifact {| ct.package := rev onnx_bytes |}
              (OtherError "OSError")
              (<[output_path := [x04]]> disk_with_artifact)
              eq_refl eq_refl eq_refl)
    as (_ & Hst & _ & Hfs).
  split; [exact Hst|]. split; [reflexivity|].
  exact (eq_trans (f_equal (λ g : gmap string (list byte), g !! output_path) Hfs)
           eq_refl).
Defined.

(** X3.  The exit status of a run is 0 or 1, and it is 0 exactly when the
    line ["Conversion complete!"] was printed, which is exactly when the
    module body ran to its end. *)
Theorem exit_status_reports_completion h f :
  (exit_status (run h f) = 0 ∨ exit_status (run h f) = 1) ∧
  (exit_status (run h f) = 0 ↔ "Conversion complete!" ∈ stdout (run h f)) ∧
  (exit_status (run h f) = 0 ↔ outcome (run h f) = Normal ()).
Proof.
  destruct (run_has_shape h f) as [e _ _|e _ _|e _ _|m e f' _ _ _|m f' _ _ _];
    unfold exit_status, stdout, outcome; simpl;
    rewrite ?elem_of_cons, ?elem_of_nil; intuition congruence.
Qed.

(** ** What flows into [save] *)

(** X4.  [save] is called at most once, only after both imports and the
    conversion succeeded, and the model it is called on is the very model
    [ct.convert] returned for the script's request. *)
Theorem saved_model_is_converted h f i m p :
  save_calls (run h f) !! i = Some (m, p) →
  i = 0%nat ∧
  import_block h = None ∧
  ct_convert h conversion_request (cwd h) f = inr m ∧
  convert_calls (run h f) = [conversion_request].
Proof.
  rewrite save_calls_run_eq, convert_calls_run.
  destruct (import_block h); [by destruct i|].
  destruct (ct_convert h conversion_request (cwd h) f) as [e|m']; [by destruct i|].
  destruct i as [|i]; [|by destruct i]. by intros [= -> _].
Qed.

Lemma saved_model_is_converted_witness :
  ct_convert (workstation "/home/dev/vad") conversion_request "/home/dev/vad"
    disk_with_source = inr {| ct.package := rev onnx_bytes |}.
Proof.
  exact (proj1 (proj2 (proj2
    (saved_model_is_converted (workstation "/home/dev/vad") disk_with_source
       0%nat {| ct.package := rev onnx_bytes |} output_path eq_refl)))).
Defined.

(** X5.  A completed run changes nothing but the destination: every other
    path, the source model among them, holds what it held before, from
    whichever directory the script was launched. *)
Theorem completed_run_preserves_other_paths h f :
  save_writes_package h →
  outcome (run h f) = Normal () →
  final_fs (run h f) !! source_path (cwd h) = f !! source_path (cwd h) ∧
  ∀ p, p ≠ output_path → final_fs (run h f) !! p = f !! p.
Proof.
  intros Hw.
  destruct (run_has_shape h f) as [e _ _|e _ _|e _ _|m e f' _ _ _|m f' _ _ Hs];
    try discriminate.
  intros _. unfold final_fs; simpl.
  rewrite (Hw m output_path (cwd h) f f' Hs), path_join_output_path.
  split; [|intros p Hp]; apply lookup_insert_ne; [|done].
  intros Heq. by apply (source_path_ne_output_path (cwd h)).
Qed.

Lemma completed_run_preserves_other_paths_witness :
  final_fs (run (workstation "/home/dev/vad") disk_with_artifact)
    !! source_path "/home/dev/vad" = Some onnx_bytes.
Proof.
  exact (eq_trans
    (proj1 (completed_run_preserves_other_paths (workstation "/home/dev/vad")
              disk_with_artifact (workstation_writes_package "/home/dev/vad")
              eq_refl))
    eq_refl).
Defined.

(** X6.  What is at the destination beforehand plays no part up to the
    [save] call: for a converter that reads only the source file, placing any
    content at the destination changes neither the conversion call, nor its
    result, nor the [save] call that follows. *)
Theorem destination_not_consulted h f b :
  convert_reads_only_source h →
  ct_convert h conversion_request (cwd h) (<[output_path := b]> f)
    = ct_convert h conversion_request (cwd h) f ∧
  convert_calls (run h (<[output_path := b]> f)) = convert_calls (run h f) ∧
  save_calls (run h (<[output_path := b]> f)) = save_calls (run h f).
Proof.
  intros Hr.
  assert (ct_convert h conversion_request (cwd h) (<[output_path := b]> f)
          = ct_convert h conversion_request (cwd h) f) as Hc.
  { apply Hr, lookup_insert_ne.
    intros Heq. by apply (source_path_ne_output_path (cwd h)). }
  by rewrite !save_calls_run_eq, !convert_calls_run, Hc.
Qed.

Lemma destination_not_consulted_witness :
  save_calls (run (workstation "/home/dev/vad") disk_with_artifact)
    = save_calls (run (workstation "/home/dev/vad") disk_with_source).
Proof.
  exact (proj2 (proj2
    (destination_not_consulted (workstation "/home/dev/vad") disk_with_source
       [xff] (workstation_reads_only_source "/home/dev/vad")))).
Defined.

(** ** Which modules matter *)

Lemma run_with_imports im h f :
  import_block (with_imports im h) = import_block h →
  run (with_imports im h) f = run h f.
Proof.
  intros Hb.
  destruct (run_has_shape h f) as [e Hb' He|e Hb' He|e Hb' Hc|m e f' Hb' Hc Hs|m f' Hb' Hc Hs];
    rewrite Hb' in Hb.
  - exact (run_ImportError _ f e Hb He).
  - exact (run_other_exception _ f e Hb He).
  - exact (run_convert_raises _ f e Hb Hc).
  - exact (run_save_raises _ f m e f' Hb Hc Hs).
  - exact (run_save_returns _ f m f' Hb Hc Hs).
Qed.

(** X7.  A run depends on the installed modules only through [coremltools]
    and [onnx]: two hosts that agree on importing those two run alike.  In
    particular [onnxruntime], which the remediation message also asks for, is
    never needed. *)
Theorem only_two_modules_matter im h f :
  im "coremltools" = import_module h "coremltools" →
  im "onnx" = import_module h "onnx" →
  run (with_imports im h) f = run h f.
Proof.
  intros H1 H2. apply run_with_imports.
  unfold import_block; simpl. by rewrite H1, H2.
Qed.

Lemma only_two_modules_matter_witness :
  without_onnxruntime "onnxruntime" = Some ModuleNotFoundError ∧
  run (with_imports without_onnxruntime (workstation "/home/dev/vad")) disk_with_source
    = run (workstation "/home/dev/vad") disk_with_source.
Proof.
  split; [reflexivity|].
  exact (only_two_modules_matter without_onnxruntime (workstation "/home/dev/vad")
           disk_with_source eq_refl eq_refl).
Defined.

(** X8.  The imports are attempted in order and the first failure decides:
    when importing [coremltools] raises, the run is the same whether or not
    [onnx] can be imported.  A [coremltools] that breaks with another error
    therefore hides a missing [onnx]: no remediation message is printed. *)
Theorem first_failing_import_decides im h f e :
  import_module h "coremltools" = Some e →
  im "coremltools" = Some e →
  run (with_imports im h) f = run h f ∧
  (isinstance_ImportError e = false →
   outcome (run (with_imports im h) f) = Unwind (Raise e) ∧
   stdout (run (with_imports im h) f) = []).
Proof.
  intros H1 H2.
  assert (import_block (with_imports im h) = Some e) as Hb.
  { unfold import_block; simpl. by rewrite H2. }
  assert (import_block h = Some e) as Hb'.
  { unfold import_block. by rewrite H1. }
  split.
  - apply run_with_imports. by rewrite Hb, Hb'.
  - intros He. by rewrite (run_other_exception _ f e Hb He).
Qed.

Lemma first_failing_import_decides_witness :
  outcome (run (with_imports
                  (λ n, if String.eqb n "onnx" then Some ModuleNotFoundError
                        else Some (OtherError "AttributeError"))
                  (workstation_failing_import "coremltools"
                     (OtherError "AttributeError")))
               disk_with_source)
    = Unwind (Raise (OtherError "AttributeError")) ∧
  stdout (run (with_imports
                 (λ n, if String.eqb n "onnx" then Some ModuleNotFoundError
                       else Some (OtherError "AttributeError"))
                 (workstation_failing_import "coremltools"
                    (OtherError "AttributeError")))
              disk_with_source) = [].
Proof.
  exact (proj2 (first_failing_import_decides
    (λ n, if String.eqb n "onnx" then Some ModuleNotFoundError
          else Some (OtherError "AttributeError"))
    (workstation_failing_import "coremltools" (OtherError "AttributeError"))
    disk_with_source (OtherError "AttributeError") eq_refl eq_refl) eq_refl).
Defined.
